(** * Verification of the reverse-vending kiosk (thungthung-pi)

    Shallow embedding of the decision engine of the kiosk:
    - [Fusion]: the sensor fusion rule table (spec section 4.3);
    - [HW]: [HardwareManager] of src/hardware/hardware_manager.py
      (weight read, ultrasonic bin level, motor sequence);
    - [Cam]: [CameraManager.predict] of src/ai/camera_manager.py;
    - [App]: the session actions and camera control of src/app.py.

    Python floats are modelled as rationals [Q]: the properties below only
    compare, clamp and scale them.  Python exceptions are explicit
    outcomes; hardware and network replies are inputs of the model. *)

From Stdlib Require Import QArith Qround Qminmax ZArith String List Bool Lia.
Import ListNotations.
Open Scope string_scope.

(** Python's [int()] on a float: truncation toward zero. *)
Definition py_int (q : Q) : Z :=
  if Qle_bool 0 q then Qfloor q else (- Qfloor (- q))%Z.

(** Python's [min(a, b)] and [max(a, b)]: the first argument unless the
    second is strictly smaller (resp. larger). *)
Definition py_min (a b : Q) : Q := if Qlt_le_dec b a then b else a.
Definition py_max (a b : Q) : Q := if Qlt_le_dec a b then b else a.

(** Python's [a > b] on floats. *)
Definition py_gt (a b : Q) : bool := negb (Qle_bool a b).

(* ------------------------------------------------------------------ *)
Module Fusion.

(** The closed label set. *)
Inductive Label := Plastic | Can | Other.

Definition Label_eqb (a b : Label) : bool :=
  match a, b with
  | Plastic, Plastic | Can, Can | Other, Other => true
  | _, _ => false
  end.

(** Modelled from the spec: the fusion engine [fuse] of the richer
    application variant (section 4.3), which is not among the source files;
    the ordered rule table, word for word:
    1. overweight: Other;
    2. Can without metal: Other;
    3. Plastic with metal: Can;
    4. Other with metal: Can;
    5. otherwise the raw label. *)
Definition fuse (weight_before : Q) (metal_detected : bool)
    (raw_label : Label) (weight_limit : Q) : Label :=
  if py_gt weight_before weight_limit then Other
  else if Label_eqb raw_label Can && negb metal_detected then Other
  else if Label_eqb raw_label Plastic && metal_detected then Can
  else if Label_eqb raw_label Other && metal_detected then Can
  else raw_label.

(** The default [weight_limit] of 50.0 g. *)
Definition WEIGHT_LIMIT : Q := 50.
Definition fuse_default (weight_before : Q) (metal_detected : bool)
    (raw_label : Label) : Label :=
  fuse weight_before metal_detected raw_label WEIGHT_LIMIT.

End Fusion.

(* ------------------------------------------------------------------ *)
Module HW.

(** Settings of [HardwareManager.__init__]. *)
Definition BIN_HEIGHT_CM : Q := 30.
Definition BIN_FULL_THRESHOLD : Q := 80.
Definition SERVO_SORTER_CH : Z := 15.
Definition SERVO_SLAPPER_CH : Z := 0.
Definition ANGLE_IDLE : Z := 60.
Definition ANGLE_PLASTIC : Z := 95.
Definition ANGLE_CAN : Z := 25.
Definition ANGLE_SLAP_REST : Z := 65.
Definition ANGLE_SLAP_HIT : Z := 160.

(** ** [get_weight] *)

(** The HX711 driver: [None] when [self.hx] is [None] (set-up failed);
    otherwise the outcome of [self.hx.get_weight(5)], [None] when it
    raises. *)
Definition hx_driver := option (option Q).

Definition get_weight (hx : hx_driver) : Q :=
  match hx with
  | Some reading =>
      match reading with
      | Some val => if py_gt val (1 # 2) then val else 0
      | None => 0  (* except: return 0.0 *)
      end
  | None => 0
  end.

(** ** [get_bin_level] *)

(** The returned dict; [error] is [None] when the key is absent. *)
Record BinReading := mkBinReading {
  percent : Z;
  is_full : bool;
  error : option bool
}.

(** The success branch: from the echo duration to the dict. *)
Definition fill_percent (duration : Q) : Q :=
  let distance := duration * 17150 in
  let valid_dist := py_max 0 (py_min distance BIN_HEIGHT_CM) in
  let fill_amount := BIN_HEIGHT_CM - valid_dist in
  (fill_amount / BIN_HEIGHT_CM) * 100.

Definition reading_of_duration (duration : Q) : BinReading :=
  let p := fill_percent duration in
  {| percent := py_int p; is_full := Qle_bool BIN_FULL_THRESHOLD p;
     error := None |}.

Definition timeout_reading : BinReading :=
  {| percent := 0; is_full := false; error := Some true |}.

(** [except Exception: return {"percent": 0, "is_full": False}] *)
Definition exception_reading : BinReading :=
  {| percent := 0; is_full := false; error := None |}.

(** The GPIO and clock as the code sees them: [output_ok] says whether
    [GPIO.output] on the trigger pin succeeds; [echo k] is the value of the
    [k]-th [GPIO.input(BIN_ECHO_PIN)] call ([None]: it raises); [clock k] is
    the value of the [k]-th [time.time()] call. *)
Record gpio_env := mkGpio {
  output_ok : bool;
  echo : nat -> option Z;
  clock : nat -> Q
}.

(** Outcome of one echo wait loop. [WFuel]: the loop did not end within
    the given number of iterations. *)
Inductive wait_out :=
| WDone (ki kt : nat) (t : Q)
| WTimeout
| WRaise
| WFuel.

(** [while GPIO.input(ECHO) == level: t = time.time();
          if t > timeout: return {..., "error": True}]
    [ki], [kt]: indices of the next [GPIO.input] and [time.time()] calls;
    [t]: the current value of the timestamp variable. *)
Fixpoint wait_while (env : gpio_env) (level : Z) (timeout : Q)
    (fuel ki kt : nat) (t : Q) : wait_out :=
  match fuel with
  | O => WFuel
  | S fuel' =>
      match echo env ki with
      | None => WRaise
      | Some v =>
          if Z.eqb v level then
            let t' := clock env kt in
            if py_gt t' timeout then WTimeout
            else wait_while env level timeout fuel' (S ki) (S kt) t'
          else WDone (S ki) kt t
      end
  end.

(** [get_bin_level]; [None] only when a loop exceeds [fuel] iterations. *)
Definition get_bin_level (env : gpio_env) (fuel : nat) : option BinReading :=
  if negb (output_ok env) then Some exception_reading
  else
    let pulse_start := clock env 0 in
    let pulse_end := clock env 1 in
    let timeout := clock env 2 + (1 # 10) in
    match wait_while env 0 timeout fuel 0 3 pulse_start with
    | WFuel => None
    | WRaise => Some exception_reading
    | WTimeout => Some timeout_reading
    | WDone ki kt pulse_start' =>
        match wait_while env 1 timeout fuel ki kt pulse_end with
        | WFuel => None
        | WRaise => Some exception_reading
        | WTimeout => Some timeout_reading
        | WDone _ _ pulse_end' =>
            Some (reading_of_duration (pulse_end' - pulse_start'))
        end
    end.

(** ** [run_motor_sequence] *)

(** Observable effects of the motor code. *)
Inductive effect :=
| SetAngle (channel : Z) (angle : option Z)
| Sleep (seconds : Q)
| Log (msg : string).

(** The servo kit: [None] when [self.kit] is [None]; otherwise whether a
    write of [angle] to [channel] succeeds (a failing write raises). *)
Definition servo_kit := option (Z -> option Z -> bool).

(** The body of the [try] block as a list of steps. *)
Inductive step := Write (channel : Z) (angle : option Z) | Wait (s : Q).

Fixpoint run_steps (ok : Z -> option Z -> bool) (steps : list step)
    : list effect :=
  match steps with
  | [] => []
  | Write ch a :: rest =>
      if ok ch a then SetAngle ch (a) :: run_steps ok rest
      else [Log "Motor Error"]  (* except Exception: print *)
  | Wait s :: rest => Sleep s :: run_steps ok rest
  end.

Definition motor_steps (target : Z) : list step :=
  [ Write SERVO_SORTER_CH (Some target); Wait (5 # 10);
    Write SERVO_SLAPPER_CH (Some ANGLE_SLAP_HIT); Wait (6 # 10);
    Write SERVO_SLAPPER_CH (Some ANGLE_SLAP_REST); Wait (4 # 10);
    Write SERVO_SORTER_CH (Some ANGLE_IDLE); Wait (5 # 10);
    Write SERVO_SORTER_CH None;
    Write SERVO_SLAPPER_CH None ].

Definition run_motor_sequence (kit : servo_kit) (label : string)
    : list effect :=
  if String.eqb label "Other" then []
  else
    match kit with
    | None => []
    | Some ok =>
        let target :=
          if String.eqb label "Plastic" then ANGLE_PLASTIC else ANGLE_CAN in
        Log ("Motors: Sorting " ++ label) :: run_steps ok (motor_steps target)
    end.

(** ** [reset_motors]: like the motor sequence, but [except: pass]. *)
Fixpoint run_steps_quiet (ok : Z -> option Z -> bool) (steps : list step)
    : list effect :=
  match steps with
  | [] => []
  | Write ch a :: rest =>
      if ok ch a then SetAngle ch a :: run_steps_quiet ok rest else []
  | Wait s :: rest => Sleep s :: run_steps_quiet ok rest
  end.

Definition reset_steps : list step :=
  [ Write SERVO_SORTER_CH (Some ANGLE_IDLE);
    Write SERVO_SLAPPER_CH (Some ANGLE_SLAP_REST); Wait (5 # 10);
    Write SERVO_SORTER_CH None;
    Write SERVO_SLAPPER_CH None ].

Definition reset_motors (kit : servo_kit) : list effect :=
  match kit with
  | None => []
  | Some ok => run_steps_quiet ok reset_steps
  end.

End HW.

(* ------------------------------------------------------------------ *)
(** src/hardware_test/containerlimit.py: the stand-alone bin monitor. *)
Module Monitor.

Definition BIN_HEIGHT : Q := 30.

(** Outcome of [get_distance]: a distance, [None] on timeout, an
    exception that escapes (the script has no handler), or out of fuel. *)
Inductive dist_out := DDist (d : Q) | DTimeout | DRaise | DFuel.

(** [get_distance()]: the same trigger and echo protocol as
    [HardwareManager.get_bin_level], on the same GPIO and clock. *)
Definition get_distance (env : HW.gpio_env) (fuel : nat) : dist_out :=
  if negb (HW.output_ok env) then DRaise
  else
    let pulse_start := HW.clock env 0 in
    let pulse_end := HW.clock env 1 in
    let timeout := HW.clock env 2 + (1 # 10) in
    match HW.wait_while env 0 timeout fuel 0 3 pulse_start with
    | HW.WFuel => DFuel
    | HW.WRaise => DRaise
    | HW.WTimeout => DTimeout
    | HW.WDone ki kt pulse_start' =>
        match HW.wait_while env 1 timeout fuel ki kt pulse_end with
        | HW.WFuel => DFuel
        | HW.WRaise => DRaise
        | HW.WTimeout => DTimeout
        | HW.WDone _ _ pulse_end' => DDist ((pulse_end' - pulse_start') * 17150)
        end
    end.

(** The body of the monitoring loop for a measured distance: the filter
    of values above 400 cm, the clamp and the fill percentage. *)
Definition percent_full (dist : Q) : Q :=
  let dist := if py_gt dist 400 then BIN_HEIGHT else dist in
  let valid_dist := py_max 0 (py_min dist BIN_HEIGHT) in
  let fill_amount := BIN_HEIGHT - valid_dist in
  (fill_amount / BIN_HEIGHT) * 100.

Definition monitor_status (dist : Q) : string :=
  let p := percent_full dist in
  if py_gt p 90 then "FULL!"
  else if py_gt 10 p then "Empty"
  else "In Use".

End Monitor.

(* ------------------------------------------------------------------ *)
Module Cam.

(** A frame: the pixel bytes of the image buffer. *)
Definition frame := list Z.

(** [np.argmax]: index of the first maximal score; [None] on an empty
    array (numpy raises). *)
Fixpoint argmax_aux (l : list Q) (i bi : nat) (b : Q) : nat :=
  match l with
  | [] => bi
  | x :: r => if py_gt x b then argmax_aux r (S i) i x
              else argmax_aux r (S i) bi b
  end.

Definition argmax (l : list Q) : option nat :=
  match l with
  | [] => None
  | x :: r => Some (argmax_aux r 1 0 x)
  end.

(** The [CameraManager] as [predict] uses it: whether [self.interpreter]
    was loaded, and the preprocessing plus inference of a frame
    ([cvtColor], [resize], [set_tensor], [invoke], [get_tensor(...)[0]]),
    [None] when any of these raises. *)
Record camera_manager := mkCameraManager {
  interpreter_loaded : bool;
  run_model : frame -> option (list Q)
}.

(** [CameraManager.predict(frame)]; [frame] is [None] for Python's
    [None]. *)
Definition predict (cm : camera_manager) (fr : option frame) : string :=
  match fr with
  | None => "Error"
  | Some f =>
      if negb (interpreter_loaded cm) then "Error"
      else
        match run_model cm f with
        | None => "Other"                      (* except: return "Other" *)
        | Some probs =>
            match argmax probs with
            | None => "Other"                  (* argmax raised *)
            | Some 0%nat => "Can"
            | Some 2%nat => "Plastic"
            | Some _ => "Other"
            end
        end
  end.

(** ** Camera acquisition of [CameraManager]

    [cap] is the index of the open device, [running] the flag; [opened]
    counts the [cv2.VideoCapture] objects created and [loops] the
    acquisition threads spawned. *)
Record cam_state := mkCamState {
  cap : option Z;
  running : bool;
  latest_frame : option frame;
  opened : nat;
  loops : nat
}.

(** [dev i]: [None] when [cv2.VideoCapture(i)] raises, otherwise whether
    [cap.isOpened()]. *)
Fixpoint try_indices (dev : Z -> option bool) (idxs : list Z) (c : cam_state)
    : bool * cam_state :=
  match idxs with
  | [] => (false, c)
  | i :: rest =>
      match dev i with
      | None => try_indices dev rest c            (* except: continue *)
      | Some is_open =>
          let c1 := mkCamState (cap c) (running c) (latest_frame c)
                      (S (opened c)) (loops c) in
          if is_open then
            (true, mkCamState (Some i) true (latest_frame c1) (opened c1)
                     (S (loops c1)))
          else try_indices dev rest c1
      end
  end.

(** [CameraManager.start_camera]. *)
Definition start_camera (dev : Z -> option bool) (c : cam_state)
    : bool * cam_state :=
  match running c, cap c with
  | true, Some _ => (true, c)
  | _, _ => try_indices dev [0; 1; -1]%Z c
  end.

(** One iteration of [_camera_loop] (entered while [running] and [cap]):
    [read] is the outcome of [self.cap.read()]. *)
Definition camera_loop_step (read : option frame) (c : cam_state)
    : cam_state :=
  match read with
  | Some f => mkCamState (cap c) (running c) (Some f) (opened c) (loops c)
  | None => c                                     (* time.sleep(0.1) *)
  end.

(** [CameraManager.capture_frame]: a copy of the latest frame. *)
Definition capture_frame (c : cam_state) : option frame := latest_frame c.

End Cam.

(* ------------------------------------------------------------------ *)
Module App.

Inductive Status := IDLE | RUNNING | SHOW_RESULT.

(** The global [state] dict of src/app.py. *)
Record session := mkSession {
  status : Status;
  transaction_id : option string;
  claim_secret : option string;
  plastic : nat;
  cans : nat;
  last_item : string
}.

(** The camera globals: [global_cap] (the index of the open capture
    device), [camera_running], [latest_frame]; [opened] counts the
    [cv2.VideoCapture] devices created and [loops] the acquisition threads
    spawned. *)
Record camera := mkCamera {
  global_cap : option Z;
  camera_running : bool;
  latest_frame : option Cam.frame;
  opened : nat;
  loops : nat
}.

(** The whole process state; [cloud_log] lists the actions posted to
    [CLOUD_URL], oldest first. *)
Record kiosk := mkKiosk {
  st : session;
  cam : camera;
  cloud_log : list string
}.

(** The JSON bodies returned by the actions. *)
Inductive response :=
| RSuccess
| RLabel (label : string)
| RError (msg : string).

Definition set_counts (s : session) (p c : nat) (item : string) : session :=
  mkSession (status s) (transaction_id s) (claim_secret s) p c item.
Definition set_status (s : session) (x : Status) : session :=
  mkSession x (transaction_id s) (claim_secret s) (plastic s) (cans s)
    (last_item s).
Definition set_tid (s : session) (t : string) : session :=
  mkSession (status s) (Some t) (claim_secret s) (plastic s) (cans s)
    (last_item s).
Definition set_secret (s : session) (c : string) : session :=
  mkSession (status s) (transaction_id s) (Some c) (plastic s) (cans s)
    (last_item s).

(** ** [start_camera]

    [dev i]: [cv2.VideoCapture(i)] opens and its first [read()] succeeds. *)
Fixpoint try_indices (dev : Z -> bool) (idxs : list Z) (c : camera) : camera :=
  match idxs with
  | [] => c                                   (* "No USB camera detected" *)
  | i :: rest =>
      let c1 := mkCamera (global_cap c) (camera_running c) (latest_frame c)
                  (S (opened c)) (loops c) in
      if dev i then
        mkCamera (Some i) true (latest_frame c1) (opened c1) (S (loops c1))
      else try_indices dev rest c1           (* cap.release() *)
  end.

Definition start_camera (dev : Z -> bool) (c : camera) : camera :=
  if camera_running c then c else try_indices dev [0; 1; 2]%Z c.

(** [capture_frame]: a copy of [latest_frame]. *)
Definition capture_frame (c : camera) : option Cam.frame := latest_frame c.

(** ** [start]

    The reply of [requests.post(CLOUD_URL, {"action": "START", ...})]
    followed by [res.json()]: [NetError] when either raises; otherwise
    [data.get("success")], [data["transactionId"]] and [data["claimSecret"]]
    ([None]: key missing, which raises [KeyError]). *)
Inductive cloud_reply :=
| NetError
| Reply (success : bool) (tid : option string) (secret : option string).

Definition start (dev : Z -> bool) (reply : cloud_reply) (k : kiosk)
    : response * kiosk :=
  let s1 := set_counts (st k) 0 0 "Ready" in
  let c1 := start_camera dev (cam k) in
  let log1 := app (cloud_log k) ["START"] in
  let failed (s : session) := (RError "Failed", mkKiosk s c1 log1) in
  match reply with
  | NetError => failed s1
  | Reply false _ _ => failed s1
  | Reply true tid secret =>
      let s2 := set_status s1 RUNNING in
      match tid with
      | None => failed s2
      | Some t =>
          let s3 := set_tid s2 t in
          match secret with
          | None => failed s3
          | Some c => (RSuccess, mkKiosk (set_secret s3 c) c1 log1)
          end
      end
  end.

(** ** [scan]

    [predict_image frame]: the score [output_data[0][0]] of the model,
    [None] when [imwrite], the preprocessing or the inference raises.  The
    answer [{"error": str(e)}] of that case is written [RError "SCAN ERROR"]:
    the text of the exception is not modelled. *)
Definition label_of_score (p : Q) : string :=
  if Qle_bool (1 # 2) p then "Plastic" else "Can".

Definition scan (predict_image : Cam.frame -> option Q) (k : kiosk)
    : response * kiosk :=
  match status (st k) with
  | RUNNING =>
      match capture_frame (cam k) with
      | None => (RError "No frame", k)
      | Some fr =>
          match predict_image fr with
          | None => (RError "SCAN ERROR", k)
          | Some p =>
              let label := label_of_score p in
              let s := st k in
              let s' := if String.eqb label "Plastic"
                        then set_counts s (S (plastic s)) (cans s) label
                        else set_counts s (plastic s) (S (cans s)) label in
              (RLabel label, mkKiosk s' (cam k) (cloud_log k))
          end
      end
  | _ => (RError "IDLE", k)
  end.

(** ** [stop_camera], [restart_camera], [camera_loop] *)

(** [stop_camera]: clears [camera_running], releases the device and
    forgets it; [latest_frame] is left as it is. *)
Definition stop_camera (c : camera) : camera :=
  mkCamera None false (latest_frame c) (opened c) (loops c).

Definition restart_camera (dev : Z -> bool) (c : camera) : camera :=
  start_camera dev (stop_camera c).

(** One iteration of [camera_loop] (entered while [camera_running]):
    [cap_open] is [global_cap.isOpened()], [read] the outcome of
    [global_cap.read()]; a failed read restarts the camera. *)
Definition camera_loop_step (dev : Z -> bool) (cap_open : bool)
    (read : option Cam.frame) (c : camera) : camera :=
  match global_cap c with
  | None => c                                     (* time.sleep(0.5) *)
  | Some _ =>
      if negb cap_open then c
      else
        match read with
        | Some f => mkCamera (global_cap c) (camera_running c) (Some f)
                      (opened c) (loops c)
        | None => restart_camera dev c
        end
  end.

(** ** [stop] and [reset]

    [post_ok]: whether the STOP [requests.post] goes through (otherwise it
    raises).  The QR image built afterwards is not part of the model. *)
Definition stop (post_ok : bool) (k : kiosk) : response * kiosk :=
  match status (st k) with
  | RUNNING =>
      let c1 := stop_camera (cam k) in
      let log1 := app (cloud_log k) ["STOP"] in
      if post_ok
      then (RSuccess, mkKiosk (set_status (st k) SHOW_RESULT) c1 log1)
      else (RError "Failed", mkKiosk (st k) c1 log1)
  | _ => (RError "IDLE", k)
  end.

Definition reset (k : kiosk) : response * kiosk :=
  (RSuccess, mkKiosk (set_status (st k) IDLE) (stop_camera (cam k))
               (cloud_log k)).

(** A run of scans, each with the classifier outcome of its frame. *)
Fixpoint scans (predict_images : list (Cam.frame -> option Q)) (k : kiosk)
    : kiosk :=
  match predict_images with
  | [] => k
  | p :: rest => scans rest (snd (scan p k))
  end.

End App.

(* ================================================================== *)
(** * Properties *)

From Stdlib Require Import Lqa.

(** ** Helper lemmas *)

Lemma py_gt_true (a b : Q) : b < a -> py_gt a b = true.
Proof.
  intro H. unfold py_gt. destruct (Qle_bool a b) eqn:E; [|reflexivity].
  apply Qle_bool_iff in E. lra.
Qed.

Lemma py_gt_false (a b : Q) : a <= b -> py_gt a b = false.
Proof.
  intro H. unfold py_gt. apply Qle_bool_iff in H. now rewrite H.
Qed.

Lemma py_min_bounds (a b : Q) : py_min a b <= b /\ (py_min a b == a \/ py_min a b == b).
Proof. unfold py_min. destruct (Qlt_le_dec b a); lra. Qed.

Lemma py_max_bounds (a b : Q) : a <= py_max a b /\ (py_max a b == a \/ py_max a b == b).
Proof. unfold py_max. destruct (Qlt_le_dec a b); lra. Qed.

Lemma fill_percent_range (d : Q) : 0 <= HW.fill_percent d <= 100.
Proof.
  unfold HW.fill_percent, HW.BIN_HEIGHT_CM.
  set (m := py_min (d * 17150) 30).
  destruct (py_min_bounds (d * 17150) 30) as [Hm _]. fold m in Hm.
  destruct (py_max_bounds 0 m) as [Hv1 [Hv2 | Hv2]];
    set (v := py_max 0 m) in *;
    (assert (E : (30 - v) / 30 * 100 == (30 - v) * (10 # 3)) by field);
    rewrite E; lra.
Qed.

Lemma py_int_nonneg (q : Q) : 0 <= q -> py_int q = Qfloor q.
Proof.
  intro H. unfold py_int. apply Qle_bool_iff in H. now rewrite H.
Qed.

Lemma Qfloor_ge_Z (q : Q) (z : Z) : (z <= Qfloor q)%Z <-> inject_Z z <= q.
Proof.
  split; intro H.
  - apply Qle_trans with (inject_Z (Qfloor q)); [|apply Qfloor_le].
    now rewrite <- Zle_Qle.
  - rewrite <- (Qfloor_Z z). now apply Qfloor_resp_le.
Qed.

Lemma reading_of_duration_ok (d : Q) :
  let r := HW.reading_of_duration d in
  (0 <= HW.percent r <= 100)%Z /\
  (HW.is_full r = true <-> HW.BIN_FULL_THRESHOLD <= HW.fill_percent d) /\
  (HW.is_full r = true <-> (80 <= HW.percent r)%Z).
Proof.
  destruct (fill_percent_range d) as [H0 H100].
  cbn [HW.reading_of_duration HW.percent HW.is_full].
  rewrite py_int_nonneg by assumption.
  unfold HW.BIN_FULL_THRESHOLD.
  split; [|split].
  - split.
    + apply Qfloor_ge_Z. exact H0.
    + rewrite <- (Qfloor_Z 100). now apply Qfloor_resp_le.
  - apply Qle_bool_iff.
  - rewrite Qle_bool_iff, Qfloor_ge_Z. reflexivity.
Qed.

Lemma get_bin_level_cases (env : HW.gpio_env) (fuel : nat) (r : HW.BinReading) :
  HW.get_bin_level env fuel = Some r ->
  r = HW.exception_reading \/ r = HW.timeout_reading \/
  exists d, r = HW.reading_of_duration d.
Proof.
  unfold HW.get_bin_level.
  destruct (negb (HW.output_ok env)).
  { intro H. injection H as <-. now left. }
  destruct (HW.wait_while _ _ _ _ _ _ _) as [ki kt ps| | |];
    [|intro H; injection H as <-; tauto ..|discriminate].
  destruct (HW.wait_while _ _ _ _ _ _ _) as [ki' kt' pe| | |];
    [|intro H; injection H as <-; tauto ..|discriminate].
  intro H. injection H as <-. right; right. eauto.
Qed.

(** ** C1 *)

(** C1: with the default weight limit of 50.0 g, [fuse] returns Other
    whenever [weight_before > 50.0], whatever the metal flag and the raw
    label; for [weight_before <= 50.0] all six (metal, raw label) pairs
    follow the rule table: Can without metal gives Other, Plastic with
    metal gives Can, Other with metal gives Can, and every other pair
    keeps the raw label. *)
Theorem fuse_rule_table :
  (forall w m raw, 50 < w -> Fusion.fuse_default w m raw = Fusion.Other) /\
  (forall w, w <= 50 ->
     Fusion.fuse_default w false Fusion.Can = Fusion.Other /\
     Fusion.fuse_default w true Fusion.Plastic = Fusion.Can /\
     Fusion.fuse_default w true Fusion.Other = Fusion.Can /\
     Fusion.fuse_default w true Fusion.Can = Fusion.Can /\
     Fusion.fuse_default w false Fusion.Plastic = Fusion.Plastic /\
     Fusion.fuse_default w false Fusion.Other = Fusion.Other).
Proof.
  unfold Fusion.fuse_default, Fusion.fuse, Fusion.WEIGHT_LIMIT.
  split.
  - intros w m raw H. now rewrite py_gt_true.
  - intros w H. rewrite !py_gt_false by exact H. repeat split.
Qed.

Lemma fuse_rule_table_witness :
  Fusion.fuse_default 60 true Fusion.Plastic = Fusion.Other /\
  Fusion.fuse_default 20 true Fusion.Plastic = Fusion.Can.
Proof.
  split.
  - apply (proj1 fuse_rule_table). unfold Qlt; simpl; lia.
  - apply (proj1 (proj2 (proj2 fuse_rule_table 20 ltac:(unfold Qle; simpl; lia)))).
Defined.

(** ** C6 *)

(** C6: for every echo duration (also negative ones, or ones whose
    distance exceeds the bin height) the reading of a measurement has an
    integer percent in [0, 100], and [is_full] holds exactly when the fill
    percentage reaches the threshold 80 (equivalently when the integer
    percent does); every reading [get_bin_level] returns has a percent in
    [0, 100] and [is_full] exactly when that percent is at least 80. *)
Theorem bin_level_percent_range :
  (forall duration : Q,
     let r := HW.reading_of_duration duration in
     (0 <= HW.percent r <= 100)%Z /\
     (HW.is_full r = true <-> HW.BIN_FULL_THRESHOLD <= HW.fill_percent duration) /\
     (HW.is_full r = true <-> (80 <= HW.percent r)%Z)) /\
  (forall env fuel r, HW.get_bin_level env fuel = Some r ->
     (0 <= HW.percent r <= 100)%Z /\
     (HW.is_full r = true <-> (80 <= HW.percent r)%Z)).
Proof.
  split.
  - exact reading_of_duration_ok.
  - intros env fuel r H.
    destruct (get_bin_level_cases env fuel r H) as [-> | [-> | [d ->]]].
    + cbn. split; [lia|split; [discriminate|lia]].
    + cbn. split; [lia|split; [discriminate|lia]].
    + destruct (reading_of_duration_ok d) as [A [_ C]]. tauto.
Qed.

(** A measurement with echo high on the 2nd and 3rd reads, the clock
    advancing by 1 ms per call. *)
Definition sample_env : HW.gpio_env :=
  HW.mkGpio true
    (fun k => if (k <? 1)%nat then Some 0%Z
              else if (k <? 3)%nat then Some 1%Z else Some 0%Z)
    (fun k => inject_Z (Z.of_nat k) / 1000).

Lemma bin_level_percent_range_witness :
  HW.get_bin_level sample_env 10 = Some (HW.reading_of_duration (1 # 1000)) /\
  (0 <= HW.percent (HW.reading_of_duration (1 # 1000)) <= 100)%Z.
Proof.
  split.
  - vm_compute. reflexivity.
  - apply (proj2 bin_level_percent_range sample_env 10%nat).
    vm_compute. reflexivity.
Defined.

(** ** C10 *)

(** C10: [get_weight] always returns a non-negative value; a raw reading
    of at most 0.5 g (negative drift included) gives exactly 0.0, and so do
    a missing sensor and a sensor read that raises. *)
Theorem get_weight_fail_open :
  (forall hx, 0 <= HW.get_weight hx) /\
  (forall val, val <= 1 # 2 -> HW.get_weight (Some (Some val)) = 0) /\
  HW.get_weight None = 0 /\
  HW.get_weight (Some None) = 0.
Proof.
  split; [|split; [|split; reflexivity]].
  - intros [[val|]|]; cbn; try lra.
    destruct (py_gt val (1 # 2)) eqn:E; [|lra].
    unfold py_gt in E. apply negb_true_iff in E.
    destruct (Qlt_le_dec (1 # 2) val) as [H|H]; [lra|].
    apply Qle_bool_iff in H. congruence.
  - intros val H. cbn. now rewrite py_gt_false.
Qed.

Lemma get_weight_fail_open_witness :
  HW.get_weight (Some (Some (- 3 # 10))) = 0.
Proof.
  apply (proj1 (proj2 get_weight_fail_open)). unfold Qle; simpl; lia.
Defined.

(** ** C5 *)

(** An echo pin whose [GPIO.input] raises (e.g. a channel not set up as an
    input), with a working trigger pin. *)
Definition raising_env : HW.gpio_env :=
  HW.mkGpio true (fun _ => None) (fun k => inject_Z (Z.of_nat k) / 1000).

(** An echo that never rises: the first wait times out after 100 ms. *)
Definition silent_env : HW.gpio_env :=
  HW.mkGpio true (fun _ => Some 0%Z) (fun k => inject_Z (Z.of_nat k) / 100).

(** C5 (code defect): the timeout branches of [get_bin_level] return
    [{"percent": 0, "is_full": False, "error": True}], but when the echo
    read raises, the [except] branch returns [{"percent": 0,
    "is_full": False}] with no [error] flag. *)
Theorem bin_level_exception_unflagged :
  HW.get_bin_level silent_env 50 = Some HW.timeout_reading /\
  HW.error HW.timeout_reading = Some true /\
  HW.get_bin_level raising_env 50 = Some HW.exception_reading /\
  HW.error HW.exception_reading = None /\
  HW.percent HW.exception_reading = 0%Z /\
  HW.is_full HW.exception_reading = false.
Proof. vm_compute. repeat split. Qed.

(** ** C7 *)

(** C7: [run_motor_sequence] does nothing (no servo write, no sleep, no
    log) when the label is "Other" or the servo kit is absent. *)
Theorem run_motor_sequence_noop (kit : HW.servo_kit) (label : string) :
  label = "Other" \/ kit = None -> HW.run_motor_sequence kit label = [].
Proof.
  intros [-> | ->]; unfold HW.run_motor_sequence.
  - reflexivity.
  - now destruct (String.eqb label "Other").
Qed.

Lemma run_motor_sequence_noop_witness :
  HW.run_motor_sequence (Some (fun _ _ => true)) "Other" = [].
Proof. apply run_motor_sequence_noop. left. reflexivity. Defined.

(** ** C4 *)

Definition labels : list string := ["Plastic"; "Can"; "Other"].

(** A loaded model whose inference always raises. *)
Definition failing_model : Cam.camera_manager :=
  Cam.mkCameraManager true (fun _ => None).

(** C4 as stated fails: on an absent frame [predict] returns "Error",
    which is outside the label set. *)
Lemma predict_outside_labels :
  ~ (forall cm fr, In (Cam.predict cm fr) labels).
Proof.
  intro H. specialize (H failing_model None).
  cbn in H. intuition discriminate.
Qed.

(** C4, as the code has it: [predict] returns "Error" exactly when the
    frame is absent or the model is not loaded; otherwise it returns one
    of Plastic, Can, Other, and a preprocessing or inference failure
    gives Other. *)
Theorem predict_labels (cm : Cam.camera_manager) (fr : option Cam.frame) :
  (Cam.predict cm fr = "Error" <->
     fr = None \/ Cam.interpreter_loaded cm = false) /\
  (fr <> None -> Cam.interpreter_loaded cm = true ->
     In (Cam.predict cm fr) labels) /\
  (forall f, fr = Some f -> Cam.interpreter_loaded cm = true ->
     Cam.run_model cm f = None -> Cam.predict cm fr = "Other").
Proof.
  destruct cm as [loaded run]. cbn [Cam.interpreter_loaded Cam.run_model].
  destruct fr as [f|]; cbn.
  - destruct loaded; cbn.
    + split; [|split].
      * split; [|intros [H|H]; discriminate].
        destruct (run f) as [probs|]; [|discriminate].
        destruct (Cam.argmax probs) as [[|[|[|n]]]|]; discriminate.
      * intros _ _. destruct (run f) as [probs|]; [|cbn; tauto].
        destruct (Cam.argmax probs) as [[|[|[|n]]]|]; cbn; tauto.
      * intros f' Hf _ Hr. injection Hf as <-. now rewrite Hr.
    + split; [tauto|split; [discriminate|]].
      intros f' _ H. discriminate.
  - split; [tauto|split; [tauto|discriminate]].
Qed.

Lemma predict_labels_witness :
  In (Cam.predict failing_model (Some [1; 2; 3]%Z)) labels /\
  Cam.predict failing_model (Some [1; 2; 3]%Z) = "Other".
Proof.
  split.
  - apply (proj1 (proj2 (predict_labels failing_model (Some [1; 2; 3]%Z))));
      [discriminate | reflexivity].
  - apply (proj2 (proj2 (predict_labels failing_model (Some [1; 2; 3]%Z)))
             [1; 2; 3]%Z); reflexivity.
Defined.

(** ** Session actions of src/app.py *)

Definition idle_camera : App.camera := App.mkCamera None false None 0 0.

(** A kiosk in IDLE with counts left from an earlier session. *)
Definition idle_kiosk : App.kiosk :=
  App.mkKiosk (App.mkSession App.IDLE None None 3 2 "Can") idle_camera [].

(** Only capture device 0 opens. *)
Definition dev0 (i : Z) : bool := Z.eqb i 0.

(** ** C8 *)

(** C8: while RUNNING, a scan with no frame in the buffer answers
    "No frame" and leaves the whole kiosk state as it was. *)
Theorem scan_no_frame_untouched
    (predict_image : Cam.frame -> option Q) (k : App.kiosk) :
  App.status (App.st k) = App.RUNNING ->
  App.latest_frame (App.cam k) = None ->
  App.scan predict_image k = (App.RError "No frame", k).
Proof.
  intros Hs Hf. unfold App.scan, App.capture_frame. now rewrite Hs, Hf.
Qed.

Definition running_no_frame : App.kiosk :=
  App.mkKiosk (App.mkSession App.RUNNING (Some "t1") (Some "s1") 1 4 "Can")
    (App.mkCamera (Some 0%Z) true None 1 1) ["START"].

Lemma scan_no_frame_untouched_witness :
  App.scan (fun _ => Some (9 # 10)) running_no_frame
  = (App.RError "No frame", running_no_frame).
Proof. apply scan_no_frame_untouched; reflexivity. Defined.

(** ** C2 *)

(** C2 as stated fails: [start] never queries the bin.  While the probe
    reads a full bin (zero echo duration), [start] from IDLE still resets
    the counters, opens the camera and, on a successful cloud reply,
    reports success and moves to RUNNING. *)
Lemma start_ignores_full_bin :
  HW.is_full (HW.reading_of_duration 0) = true /\
  App.start dev0 (App.Reply true (Some "t1") (Some "s1")) idle_kiosk =
    (App.RSuccess,
     App.mkKiosk (App.mkSession App.RUNNING (Some "t1") (Some "s1") 0 0 "Ready")
       (App.mkCamera (Some 0%Z) true None 1 1) ["START"]).
Proof. split; vm_compute; reflexivity. Qed.

Lemma start_resets_without_bin_check_facts
    (dev : Z -> bool) (reply : App.cloud_reply) (k : App.kiosk) :
  let k' := snd (App.start dev reply k) in
  App.plastic (App.st k') = 0%nat /\ App.cans (App.st k') = 0%nat /\
  App.last_item (App.st k') = "Ready" /\
  App.cam k' = App.start_camera dev (App.cam k) /\
  App.cloud_log k' = app (App.cloud_log k) ["START"] /\
  App.status (App.st k') =
    match reply with
    | App.Reply true _ _ => App.RUNNING
    | _ => App.status (App.st k)
    end.
Proof.
  destruct reply as [|[] [t|] [c|]]; cbn; repeat split.
Qed.

(** C2, as the code has it: whatever the bin level, [start] resets the
    plastic and can counters to 0 and [last_item] to "Ready", runs
    [start_camera], posts START to the cloud, and sets the status to
    RUNNING exactly when the cloud reply reports success (otherwise the
    status is left as it was). *)
Theorem start_resets_without_bin_check
    (dev : Z -> bool) (reply : App.cloud_reply) (k : App.kiosk) :
  let k' := snd (App.start dev reply k) in
  App.plastic (App.st k') = 0%nat /\ App.cans (App.st k') = 0%nat /\
  App.last_item (App.st k') = "Ready" /\
  App.cam k' = App.start_camera dev (App.cam k) /\
  App.cloud_log k' = app (App.cloud_log k) ["START"] /\
  App.status (App.st k') =
    match reply with
    | App.Reply true _ _ => App.RUNNING
    | _ => App.status (App.st k)
    end.
Proof. exact (start_resets_without_bin_check_facts dev reply k). Qed.

(** ** C3 *)

(** C3 as stated fails: when the cloud call fails, [start] reports
    failure and the session stays IDLE with no transaction id. *)
Lemma start_cloud_failure_stays_idle :
  App.start dev0 App.NetError idle_kiosk =
    (App.RError "Failed",
     App.mkKiosk (App.mkSession App.IDLE None None 0 0 "Ready")
       (App.mkCamera (Some 0%Z) true None 1 1) ["START"]).
Proof. vm_compute. reflexivity. Qed.

(** C3, as the code has it: when the cloud START call fails (network or
    JSON error, or a reply without success), [start] answers "Failed" and
    leaves the status, the transaction id and the claim secret as they
    were; no local fallback id is generated.  The counters are still reset
    and the camera is still started. *)
Theorem start_cloud_failure_no_fallback
    (dev : Z -> bool) (reply : App.cloud_reply) (k : App.kiosk) :
  (reply = App.NetError \/ exists t c, reply = App.Reply false t c) ->
  let (r, k') := App.start dev reply k in
  r = App.RError "Failed" /\
  App.status (App.st k') = App.status (App.st k) /\
  App.transaction_id (App.st k') = App.transaction_id (App.st k) /\
  App.claim_secret (App.st k') = App.claim_secret (App.st k) /\
  App.plastic (App.st k') = 0%nat /\ App.cans (App.st k') = 0%nat /\
  App.last_item (App.st k') = "Ready" /\
  App.cam k' = App.start_camera dev (App.cam k).
Proof.
  intros [-> | [t [c ->]]]; cbn; repeat split.
Qed.

Lemma start_cloud_failure_no_fallback_witness :
  fst (App.start dev0 App.NetError idle_kiosk) = App.RError "Failed" /\
  App.status (App.st (snd (App.start dev0 App.NetError idle_kiosk)))
    = App.IDLE.
Proof.
  pose proof (start_cloud_failure_no_fallback dev0 App.NetError idle_kiosk
                (or_introl eq_refl)) as H.
  destruct (App.start dev0 App.NetError idle_kiosk) as [r k'] eqn:E.
  destruct H as [H1 [H2 _]]. cbn. split; [exact H1 | exact H2].
Defined.

(** ** C9 *)

Definition kiosk_after_two_starts : App.kiosk * App.kiosk :=
  let k1 := snd (App.start dev0 (App.Reply true (Some "t1") (Some "s1"))
                   idle_kiosk) in
  let k2 := snd (App.start dev0 (App.Reply true (Some "t2") (Some "s2")) k1) in
  (k1, k2).

(** C9 as stated fails: a second [start] while RUNNING does not reopen the
    camera (one device opened, one loop spawned), but it posts a second
    START to the cloud and replaces the transaction id by a new one. *)
Lemma second_start_new_transaction :
  let (k1, k2) := kiosk_after_two_starts in
  App.status (App.st k1) = App.RUNNING /\
  App.cam k2 = App.cam k1 /\
  App.opened (App.cam k2) = 1%nat /\ App.loops (App.cam k2) = 1%nat /\
  App.cloud_log k2 = ["START"; "START"] /\
  App.transaction_id (App.st k1) = Some "t1" /\
  App.transaction_id (App.st k2) = Some "t2".
Proof. vm_compute. repeat split. Qed.

(** C9, as the code has it: [start_camera] (which returns nothing) changes
    nothing while [camera_running] is set: no capture device is opened and
    no acquisition loop is spawned; hence a further [start] while the
    camera runs leaves the camera as it was, yet it posts another START to
    the cloud and, on a successful reply, overwrites the transaction id and
    claim secret with the reply's and resets the counters. *)
Theorem start_camera_idempotent
    (dev : Z -> bool) (k : App.kiosk) :
  App.camera_running (App.cam k) = true ->
  App.start_camera dev (App.cam k) = App.cam k /\
  (forall reply, App.cam (snd (App.start dev reply k)) = App.cam k /\
                 App.cloud_log (snd (App.start dev reply k))
                   = app (App.cloud_log k) ["START"]) /\
  (forall t c,
     let k' := snd (App.start dev (App.Reply true (Some t) (Some c)) k) in
     App.transaction_id (App.st k') = Some t /\
     App.claim_secret (App.st k') = Some c /\
     App.plastic (App.st k') = 0%nat /\ App.cans (App.st k') = 0%nat).
Proof.
  intro H.
  assert (Hc : App.start_camera dev (App.cam k) = App.cam k)
    by (unfold App.start_camera; now rewrite H).
  split; [exact Hc|split].
  - intros reply. destruct (start_resets_without_bin_check_facts dev reply k)
      as [_ [_ [_ [Hcam [Hlog _]]]]].
    split; [now rewrite Hcam | exact Hlog].
  - intros t c. cbn. repeat split.
Qed.

Lemma start_camera_idempotent_witness :
  App.start_camera dev0 (App.cam (snd kiosk_after_two_starts))
    = App.cam (snd kiosk_after_two_starts).
Proof.
  apply (start_camera_idempotent dev0 (snd kiosk_after_two_starts)).
  vm_compute. reflexivity.
Defined.

(* ================================================================== *)
(** * Further properties of the code *)

(** ** Clamping helpers *)

Lemma py_min_mono (a a' b : Q) : a <= a' -> py_min a b <= py_min a' b.
Proof.
  unfold py_min. destruct (Qlt_le_dec b a), (Qlt_le_dec b a'); lra.
Qed.

Lemma py_max_mono (a b b' : Q) : b <= b' -> py_max a b <= py_max a b'.
Proof.
  unfold py_max. destruct (Qlt_le_dec a b), (Qlt_le_dec a b'); lra.
Qed.

Lemma fill_percent_eq (d : Q) :
  HW.fill_percent d == (30 - py_max 0 (py_min (d * 17150) 30)) * (10 # 3).
Proof. unfold HW.fill_percent, HW.BIN_HEIGHT_CM. field. Qed.

Lemma Qfloor_Qeq (a b : Q) : a == b -> Qfloor a = Qfloor b.
Proof.
  intro H. apply Z.le_antisymm; apply Qfloor_resp_le; rewrite H; apply Qle_refl.
Qed.

(** ** X1 *)

(** X1: the fill percentage never increases with the echo duration: a
    longer echo (a farther surface) never gives a fuller bin, for the
    fractional and the integer percent. *)
Theorem fill_percent_antitone (d1 d2 : Q) :
  d1 <= d2 ->
  HW.fill_percent d2 <= HW.fill_percent d1 /\
  (HW.percent (HW.reading_of_duration d2) <=
   HW.percent (HW.reading_of_duration d1))%Z.
Proof.
  intro H.
  assert (Hf : HW.fill_percent d2 <= HW.fill_percent d1).
  { rewrite !fill_percent_eq.
    assert (py_max 0 (py_min (d1 * 17150) 30) <=
            py_max 0 (py_min (d2 * 17150) 30)).
    { apply py_max_mono, py_min_mono.
      apply Qmult_le_compat_r; [exact H | unfold Qle; simpl; lia]. }
    lra. }
  split; [exact Hf|].
  cbn [HW.reading_of_duration HW.percent].
  destruct (fill_percent_range d1), (fill_percent_range d2).
  rewrite !py_int_nonneg by assumption. now apply Qfloor_resp_le.
Qed.

Lemma fill_percent_antitone_witness :
  (HW.percent (HW.reading_of_duration (1 # 1000)) <=
   HW.percent (HW.reading_of_duration (1 # 2000)))%Z.
Proof.
  apply (fill_percent_antitone (1 # 2000) (1 # 1000)).
  unfold Qle; simpl; lia.
Defined.

(** ** X2 *)

(** X2: a measured reading reports the bin full exactly when the echo
    distance [duration * 17150] is at most 6 cm (80 % of the 30 cm
    depth). *)
Theorem is_full_iff_distance (d : Q) :
  HW.is_full (HW.reading_of_duration d) = true <-> d * 17150 <= 6.
Proof.
  cbn [HW.reading_of_duration HW.is_full]. rewrite Qle_bool_iff.
  unfold HW.BIN_FULL_THRESHOLD. rewrite fill_percent_eq.
  unfold py_max, py_min.
  destruct (Qlt_le_dec 30 (d * 17150)); destruct (Qlt_le_dec 0 _); lra.
Qed.

(** ** X3 *)

(** X3: when the echo distance is at least the bin depth, the genuine
    reading is exactly the dict the [except] branch returns: a failed
    measurement cannot be told from an empty bin. *)
Theorem empty_bin_reading_is_exception_reading (d : Q) :
  30 <= d * 17150 -> HW.reading_of_duration d = HW.exception_reading.
Proof.
  intro H.
  assert (E : HW.fill_percent d == 0).
  { rewrite fill_percent_eq. unfold py_max, py_min.
    destruct (Qlt_le_dec 30 (d * 17150)); destruct (Qlt_le_dec 0 _); lra. }
  unfold HW.reading_of_duration, HW.exception_reading.
  rewrite py_int_nonneg by (rewrite E; apply Qle_refl).
  rewrite (Qfloor_Qeq _ _ E).
  destruct (Qle_bool HW.BIN_FULL_THRESHOLD (HW.fill_percent d)) eqn:F.
  - apply Qle_bool_iff in F. unfold HW.BIN_FULL_THRESHOLD in F. lra.
  - reflexivity.
Qed.

Lemma empty_bin_reading_is_exception_reading_witness :
  HW.reading_of_duration (1 # 100) = HW.exception_reading.
Proof.
  apply empty_bin_reading_is_exception_reading. unfold Qle; simpl; lia.
Defined.

(** ** Bounded echo waits *)

Section BoundedWait.

Variables (env : HW.gpio_env) (timeout : Q) (n : nat).

(** From the [n]-th [time.time()] call on, the clock is past the
    deadline. *)
Hypothesis late : forall k, (n <= k)%nat -> py_gt (HW.clock env k) timeout = true.

Lemma wait_while_no_fuel_out (level : Z) (fuel ki kt : nat) (t : Q) :
  (0 < fuel)%nat -> (n < kt + fuel)%nat ->
  HW.wait_while env level timeout fuel ki kt t <> HW.WFuel.
Proof.
  revert ki kt t. induction fuel as [|fuel IH]; intros ki kt t H0 H1; [lia|].
  cbn. destruct (HW.echo env ki) as [v|]; [|discriminate].
  destruct (Z.eqb v level); [|discriminate].
  destruct (Nat.le_gt_cases n kt) as [Hle|Hlt].
  - rewrite (late kt Hle). discriminate.
  - destruct (py_gt (HW.clock env kt) timeout); [discriminate|].
    apply IH; lia.
Qed.

End BoundedWait.

Lemma wait_while_done_index (env : HW.gpio_env) (level : Z) (timeout : Q)
    (fuel ki kt : nat) (t : Q) ki' kt' t' :
  HW.wait_while env level timeout fuel ki kt t = HW.WDone ki' kt' t' ->
  (kt <= kt')%nat.
Proof.
  revert ki kt t. induction fuel as [|fuel IH]; intros ki kt t; cbn;
    [discriminate|].
  destruct (HW.echo env ki) as [v|]; [|discriminate].
  destruct (Z.eqb v level).
  - destruct (py_gt _ _); [discriminate|].
    intro H. apply IH in H. lia.
  - intro H. injection H as _ <- _. lia.
Qed.

(** ** X4 *)

(** X4: the echo waits of [get_bin_level] are bounded: if every
    [time.time()] value from the [n]-th call on is past the deadline (the
    third call plus 100 ms), the measurement returns a reading within [n]
    loop iterations per wait. *)
Theorem get_bin_level_bounded (env : HW.gpio_env) (n : nat) :
  (forall k, (n <= k)%nat ->
     py_gt (HW.clock env k) (HW.clock env 2 + (1 # 10)) = true) ->
  HW.get_bin_level env n <> None.
Proof.
  intro late.
  destruct n as [|m].
  { specialize (late 2%nat ltac:(lia)). unfold py_gt in late.
    apply negb_true_iff in late.
    assert (HW.clock env 2 <= HW.clock env 2 + (1 # 10)) by lra.
    apply Qle_bool_iff in H. congruence. }
  unfold HW.get_bin_level.
  destruct (negb (HW.output_ok env)); [discriminate|].
  pose proof (wait_while_no_fuel_out env _ (S m) late 0 (S m) 0 3
                (HW.clock env 0) ltac:(lia) ltac:(lia)) as A.
  destruct (HW.wait_while env 0 _ (S m) 0 3 _) as [ki kt ps| | |] eqn:E1;
    try discriminate; [|exfalso; now apply A].
  apply wait_while_done_index in E1.
  pose proof (wait_while_no_fuel_out env _ (S m) late 1 (S m) ki kt
                (HW.clock env 1) ltac:(lia) ltac:(lia)) as B.
  destruct (HW.wait_while env 1 _ (S m) ki kt _); try discriminate.
  exfalso; now apply B.
Qed.

Lemma get_bin_level_bounded_witness : HW.get_bin_level silent_env 13 <> None.
Proof.
  apply get_bin_level_bounded. intros k Hk.
  unfold py_gt. apply negb_true_iff. apply not_true_iff_false.
  rewrite Qle_bool_iff. cbn [HW.clock silent_env].
  intro H. apply Qle_not_lt in H. apply H.
  assert (inject_Z 13 <= inject_Z (Z.of_nat k)) by (rewrite <- Zle_Qle; lia).
  assert (inject_Z 13 == 13) by reflexivity.
  change (inject_Z (Z.of_nat 2)) with (2 # 1).
  unfold Qdiv. change (/ 100) with (1 # 100). lra.
Defined.

(** ** Motor sequences *)

Definition servos_ok : Z -> option Z -> bool := fun _ _ => true.

Fixpoint total_sleep (l : list HW.effect) : Q :=
  match l with
  | [] => 0
  | HW.Sleep s :: r => s + total_sleep r
  | _ :: r => total_sleep r
  end.

(** ** X5 *)

(** X5: with working servos, every label other than "Other" (including
    "Can" and the "Error" of [predict]) runs the whole sequence: the sorter
    goes to 95 degrees for "Plastic" and to 25 degrees for any other label,
    it returns to idle, the sleeps add up to 2 seconds, and both servos
    are released at the end. *)
Theorem motor_sequence_full (ok : Z -> option Z -> bool) (label : string) :
  (forall ch a, ok ch a = true) -> label <> "Other" ->
  exists mid,
    HW.run_motor_sequence (Some ok) label =
      HW.Log ("Motors: Sorting " ++ label) ::
      HW.SetAngle HW.SERVO_SORTER_CH
        (Some (if String.eqb label "Plastic" then HW.ANGLE_PLASTIC
               else HW.ANGLE_CAN)) ::
      mid ++ [HW.SetAngle HW.SERVO_SORTER_CH None;
              HW.SetAngle HW.SERVO_SLAPPER_CH None] /\
    total_sleep mid == 2 /\
    In (HW.SetAngle HW.SERVO_SORTER_CH (Some HW.ANGLE_IDLE)) mid.
Proof.
  intros Hok Hl. unfold HW.run_motor_sequence.
  apply String.eqb_neq in Hl. rewrite Hl.
  cbn [HW.motor_steps HW.run_steps]. rewrite !Hok.
  exists [HW.Sleep (5 # 10); HW.SetAngle HW.SERVO_SLAPPER_CH (Some HW.ANGLE_SLAP_HIT);
          HW.Sleep (6 # 10); HW.SetAngle HW.SERVO_SLAPPER_CH (Some HW.ANGLE_SLAP_REST);
          HW.Sleep (4 # 10); HW.SetAngle HW.SERVO_SORTER_CH (Some HW.ANGLE_IDLE);
          HW.Sleep (5 # 10)].
  split; [reflexivity|]. split.
  - cbn. reflexivity.
  - cbn. tauto.
Qed.

Lemma motor_sequence_full_witness :
  exists mid,
    HW.run_motor_sequence (Some servos_ok) "Error" =
      HW.Log ("Motors: Sorting " ++ "Error") ::
      HW.SetAngle HW.SERVO_SORTER_CH (Some HW.ANGLE_CAN) ::
      mid ++ [HW.SetAngle HW.SERVO_SORTER_CH None;
              HW.SetAngle HW.SERVO_SLAPPER_CH None] /\
    total_sleep mid == 2 /\
    In (HW.SetAngle HW.SERVO_SORTER_CH (Some HW.ANGLE_IDLE)) mid.
Proof.
  apply (motor_sequence_full servos_ok "Error"); [reflexivity | discriminate].
Defined.

(** ** X6 *)

Lemma run_steps_fault (ok : Z -> option Z -> bool) (steps : list HW.step) :
  HW.run_steps ok steps = HW.run_steps servos_ok steps \/
  exists p rest,
    HW.run_steps servos_ok steps = (p ++ rest)%list /\ rest <> [] /\
    HW.run_steps ok steps = (p ++ [HW.Log "Motor Error"])%list.
Proof.
  induction steps as [|[ch a|s] steps IH]; [now left|..]; cbn.
  - destruct (ok ch a).
    + destruct IH as [-> | [p [rest [H1 [H2 H3]]]]]; [now left|right].
      exists (HW.SetAngle ch a :: p), rest.
      rewrite H1, H3. repeat split; assumption.
    + right. exists [], (HW.SetAngle ch a :: HW.run_steps servos_ok steps).
      repeat split; discriminate.
  - destruct IH as [-> | [p [rest [H1 [H2 H3]]]]]; [now left|right].
    exists (HW.Sleep s :: p), rest. rewrite H1, H3. repeat split; assumption.
Qed.

(** X6: a servo fault during the motor sequence never raises: either
    every write succeeds and the trace is that of working servos, or the
    trace is a strict prefix of it followed by the "Motor Error" log, with
    no servo command or sleep after the fault. *)
Theorem motor_sequence_fault_stops (ok : Z -> option Z -> bool) (label : string) :
  HW.run_motor_sequence (Some ok) label =
    HW.run_motor_sequence (Some servos_ok) label \/
  exists p rest,
    HW.run_motor_sequence (Some servos_ok) label = (p ++ rest)%list /\ rest <> [] /\
    HW.run_motor_sequence (Some ok) label = (p ++ [HW.Log "Motor Error"])%list.
Proof.
  unfold HW.run_motor_sequence.
  destruct (String.eqb label "Other"); [now left|].
  destruct (run_steps_fault ok
              (HW.motor_steps (if String.eqb label "Plastic"
                               then HW.ANGLE_PLASTIC else HW.ANGLE_CAN)))
    as [-> | [p [rest [H1 [H2 H3]]]]]; [now left|right].
  exists (HW.Log ("Motors: Sorting " ++ label) :: p), rest.
  rewrite H1, H3. repeat split; assumption.
Qed.

(** ** X7 *)

Lemma run_steps_quiet_prefix (ok : Z -> option Z -> bool) (steps : list HW.step) :
  exists rest, HW.run_steps_quiet servos_ok steps =
               (HW.run_steps_quiet ok steps ++ rest)%list.
Proof.
  induction steps as [|[ch a|s] steps [rest IH]]; cbn.
  - now exists [].
  - destruct (ok ch a); cbn.
    + exists rest. now rewrite IH.
    + eexists. reflexivity.
  - exists rest. now rewrite IH.
Qed.

(** X7: [reset_motors] never logs or raises: with working servos it sets
    the sorter to idle (60) and the slapper to rest (65), waits 0.5 s and
    releases both; otherwise it issues a prefix of that sequence and stops
    silently; without a kit it does nothing at all. *)
Theorem reset_motors_prefix (kit : HW.servo_kit) :
  HW.reset_motors None = [] /\
  HW.reset_motors (Some servos_ok) =
    [HW.SetAngle HW.SERVO_SORTER_CH (Some HW.ANGLE_IDLE);
     HW.SetAngle HW.SERVO_SLAPPER_CH (Some HW.ANGLE_SLAP_REST);
     HW.Sleep (5 # 10);
     HW.SetAngle HW.SERVO_SORTER_CH None;
     HW.SetAngle HW.SERVO_SLAPPER_CH None] /\
  exists rest, HW.reset_motors (Some servos_ok) = (HW.reset_motors kit ++ rest)%list.
Proof.
  split; [reflexivity|]. split; [reflexivity|].
  destruct kit as [ok|].
  - apply run_steps_quiet_prefix.
  - eexists. reflexivity.
Qed.

Lemma py_gt_true_iff (a b : Q) : py_gt a b = true <-> b < a.
Proof.
  unfold py_gt. rewrite negb_true_iff, <- not_true_iff_false, Qle_bool_iff.
  split; [apply Qnot_le_lt | apply Qlt_not_le].
Qed.

(** ** X8 *)

(** X8: the test script's [get_distance] and [get_bin_level] run the same
    protocol: on the same GPIO and clock, a distance [dist] from
    [get_distance] is [duration * 17150] for the duration that
    [get_bin_level] turns into its reading; a timeout ([None]) of
    [get_distance] is the error reading of [get_bin_level], and an exception
    that escapes [get_distance] is caught by [get_bin_level]. *)
Theorem get_distance_agrees (env : HW.gpio_env) (fuel : nat) :
  match Monitor.get_distance env fuel with
  | Monitor.DDist dist => exists duration, dist = duration * 17150 /\
      HW.get_bin_level env fuel = Some (HW.reading_of_duration duration)
  | Monitor.DTimeout => HW.get_bin_level env fuel = Some HW.timeout_reading
  | Monitor.DRaise => HW.get_bin_level env fuel = Some HW.exception_reading
  | Monitor.DFuel => HW.get_bin_level env fuel = None
  end.
Proof.
  unfold Monitor.get_distance, HW.get_bin_level.
  destruct (negb (HW.output_ok env)); [reflexivity|].
  destruct (HW.wait_while env 0 _ fuel 0 3 _) as [ki kt ps| | |];
    try reflexivity.
  destruct (HW.wait_while env 1 _ fuel ki kt _) as [ki' kt' pe| | |];
    try reflexivity.
  eexists. split; reflexivity.
Qed.

(** ** X9 *)

(** X9: whenever the stand-alone monitor shows "FULL!" for a measured
    echo, the [HardwareManager] reading of the same echo reports the bin
    full (the monitor's 90 % mark is above the 80 % threshold). *)
Theorem monitor_full_implies_is_full (duration : Q) :
  Monitor.monitor_status (duration * 17150) = "FULL!" ->
  HW.is_full (HW.reading_of_duration duration) = true.
Proof.
  unfold Monitor.monitor_status.
  destruct (py_gt (Monitor.percent_full (duration * 17150)) 90) eqn:E;
    [|destruct (py_gt 10 _); discriminate].
  intros _. apply py_gt_true_iff in E.
  cbn [HW.reading_of_duration HW.is_full]. apply Qle_bool_iff.
  unfold Monitor.percent_full in E.
  destruct (py_gt (duration * 17150) 400).
  - unfold Monitor.BIN_HEIGHT, py_max, py_min in E.
    destruct (Qlt_le_dec 30 30); destruct (Qlt_le_dec 0 _);
      (assert (F : forall x : Q, (30 - x) / 30 * 100 == (30 - x) * (10 # 3))
         by (intro; field)); rewrite F in E; lra.
  - change (90 < HW.fill_percent duration) in E.
    unfold HW.BIN_FULL_THRESHOLD. lra.
Qed.

Lemma monitor_full_implies_is_full_witness :
  HW.is_full (HW.reading_of_duration (1 # 17150)) = true.
Proof. apply monitor_full_implies_is_full. vm_compute. reflexivity. Defined.

(** ** X10 *)

Lemma cam_try_indices_spec (dev : Z -> option bool) (idxs : list Z)
    (c : Cam.cam_state) :
  let (b, c') := Cam.try_indices dev idxs c in
  Cam.latest_frame c' = Cam.latest_frame c /\
  (b = false <->
     (forall i, In i idxs -> dev i <> Some true)) /\
  (b = false -> Cam.cap c' = Cam.cap c /\ Cam.running c' = Cam.running c /\
                Cam.loops c' = Cam.loops c) /\
  (b = true -> exists i, In i idxs /\ dev i = Some true /\
                Cam.cap c' = Some i /\ Cam.running c' = true /\
                Cam.loops c' = S (Cam.loops c)).
Proof.
  revert c. induction idxs as [|i idxs IH]; intro c; cbn.
  - split; [reflexivity|]. split; [split; [intros _ j []|reflexivity]|].
    split; [tauto|discriminate].
  - destruct (dev i) as [[|]|] eqn:D.
    + cbn. split; [reflexivity|]. split.
      * split; [discriminate|]. intro H. exfalso. now apply (H i (or_introl eq_refl)).
      * split; [discriminate|]. intros _. exists i. tauto.
    + specialize (IH (Cam.mkCamState (Cam.cap c) (Cam.running c)
                        (Cam.latest_frame c) (S (Cam.opened c)) (Cam.loops c))).
      destruct (Cam.try_indices _ _ _) as [b c'].
      destruct IH as [IH1 [IH2 [IH3 IH4]]]. cbn in *.
      split; [exact IH1|]. split.
      * rewrite IH2. split; intros H j Hj; [destruct Hj as [<-|Hj]|];
          [congruence | now apply H | apply H; now right].
      * split; [exact IH3|]. intro Hb. destruct (IH4 Hb) as [j Hj].
        exists j. tauto.
    + specialize (IH c). destruct (Cam.try_indices _ _ _) as [b c'].
      destruct IH as [IH1 [IH2 [IH3 IH4]]].
      split; [exact IH1|]. split.
      * rewrite IH2. split; intros H j Hj; [destruct Hj as [<-|Hj]|];
          [congruence | now apply H | apply H; now right].
      * split; [exact IH3|]. intro Hb. destruct (IH4 Hb) as [j Hj].
        exists j. tauto.
Qed.

(** X10: [CameraManager.start_camera] returns False exactly when the
    camera is not already running and none of the indices 0, 1, -1 opens;
    then it spawns no loop and leaves the device and the running flag as
    they were.  It returns True with the flag set and a device held, after
    spawning at most one loop; calling it again then returns True and
    changes nothing. *)
Theorem cam_start_camera_spec (dev : Z -> option bool) (c : Cam.cam_state) :
  let (b, c') := Cam.start_camera dev c in
  (b = false <->
     ~ (Cam.running c = true /\ Cam.cap c <> None) /\
     (forall i, In i [0; 1; -1]%Z -> dev i <> Some true)) /\
  (b = false -> Cam.cap c' = Cam.cap c /\ Cam.running c' = Cam.running c /\
                Cam.loops c' = Cam.loops c) /\
  (b = true -> Cam.running c' = true /\ Cam.cap c' <> None /\
               (Cam.loops c' <= S (Cam.loops c))%nat /\
               forall dev', Cam.start_camera dev' c' = (true, c')).
Proof.
  destruct (Cam.running c) eqn:R, (Cam.cap c) as [j|] eqn:C;
    unfold Cam.start_camera at 1; rewrite ?R, ?C; cbv beta iota.
  - split; [split; [discriminate|intros [H _]; exfalso; apply H; split;
                                    [reflexivity|discriminate]]|].
    split; [discriminate|]. intros _.
    split; [exact R|]. split; [rewrite ?C; discriminate|]. split; [lia|].
    intro dev'. unfold Cam.start_camera. now rewrite ?R, ?C.
  - pose proof (cam_try_indices_spec dev [0; 1; -1]%Z c) as H.
    destruct (Cam.try_indices _ _ _) as [b c'].
    destruct H as [_ [H2 [H3 H4]]]. split.
    + rewrite H2. split; [intro; split; [intros [_ N]; now apply N|assumption]|tauto].
    + split; [rewrite R, C in H3; exact H3|]. intro Hb. destruct (H4 Hb) as [i [_ [_ [Hc [Hr Hl]]]]].
      rewrite Hc, Hr, Hl. repeat split; [discriminate|lia|].
      intro dev'. unfold Cam.start_camera. now rewrite Hr, Hc.
  - pose proof (cam_try_indices_spec dev [0; 1; -1]%Z c) as H.
    destruct (Cam.try_indices _ _ _) as [b c'].
    destruct H as [_ [H2 [H3 H4]]]. split.
    + rewrite H2. split; [intro; split; [intros [N _]; discriminate|assumption]|tauto].
    + split; [rewrite R, C in H3; exact H3|]. intro Hb. destruct (H4 Hb) as [i [_ [_ [Hc [Hr Hl]]]]].
      rewrite Hc, Hr, Hl. repeat split; [discriminate|lia|].
      intro dev'. unfold Cam.start_camera. now rewrite Hr, Hc.
  - pose proof (cam_try_indices_spec dev [0; 1; -1]%Z c) as H.
    destruct (Cam.try_indices _ _ _) as [b c'].
    destruct H as [_ [H2 [H3 H4]]]. split.
    + rewrite H2. split; [intro; split; [intros [N _]; discriminate|assumption]|tauto].
    + split; [rewrite R, C in H3; exact H3|]. intro Hb. destruct (H4 Hb) as [i [_ [_ [Hc [Hr Hl]]]]].
      rewrite Hc, Hr, Hl. repeat split; [discriminate|lia|].
      intro dev'. unfold Cam.start_camera. now rewrite Hr, Hc.
Qed.

(** ** X11 *)

Definition cam_loop_run (reads : list (option Cam.frame)) (c : Cam.cam_state)
    : Cam.cam_state :=
  fold_left (fun c r => Cam.camera_loop_step r c) reads c.

Definition last_read (reads : list (option Cam.frame)) (dflt : option Cam.frame)
    : option Cam.frame :=
  fold_left (fun acc r => match r with Some f => Some f | None => acc end)
    reads dflt.

(** X11: after any run of [_camera_loop] iterations, [capture_frame]
    returns the most recently read frame (failed reads keep the previous
    one; [None] if no read has succeeded yet); the loop never reopens the
    device, spawns another loop or clears the running flag. *)
Theorem cam_loop_capture_latest (reads : list (option Cam.frame))
    (c : Cam.cam_state) :
  let c' := cam_loop_run reads c in
  Cam.capture_frame c' = last_read reads (Cam.latest_frame c) /\
  Cam.cap c' = Cam.cap c /\ Cam.running c' = Cam.running c /\
  Cam.opened c' = Cam.opened c /\ Cam.loops c' = Cam.loops c.
Proof.
  unfold cam_loop_run, last_read. revert c.
  induction reads as [|[f|] reads IH]; intro c; cbn.
  - tauto.
  - destruct (IH (Cam.mkCamState (Cam.cap c) (Cam.running c) (Some f)
                    (Cam.opened c) (Cam.loops c))) as [A [B [C [D E]]]].
    cbn in *. tauto.
  - apply IH.
Qed.

(** ** X12 *)

Lemma app_start_camera_spec_facts (dev : Z -> bool) (c : App.camera) :
  App.camera_running c = false ->
  let c' := App.start_camera dev c in
  App.latest_frame c' = App.latest_frame c /\
  ((dev 0%Z = true \/ dev 1%Z = true \/ dev 2%Z = true) ->
     App.camera_running c' = true /\ App.loops c' = S (App.loops c) /\
     exists i, App.global_cap c' = Some i /\ dev i = true) /\
  (dev 0%Z = false -> dev 1%Z = false -> dev 2%Z = false ->
     c' = App.mkCamera (App.global_cap c) false (App.latest_frame c)
            (App.opened c + 3) (App.loops c)).
Proof.
  intro H. unfold App.start_camera. rewrite H. cbn.
  destruct (dev 0%Z) eqn:D0, (dev 1%Z) eqn:D1, (dev 2%Z) eqn:D2; cbn;
    (split; [reflexivity|split]);
    try (intros _; split; [reflexivity|split; [reflexivity|]];
         eexists; split; [reflexivity|assumption]);
    try (intros E; discriminate);
    try (intros [E|[E|E]]; discriminate).
  intros _ _ _. rewrite <- H. f_equal. lia.
Qed.

(** X12: [start_camera] of src/app.py, called when the camera is not
    running, keeps the latest frame; if one of the indices 0, 1, 2 opens
    and reads, it sets [camera_running], holds that device and spawns
    exactly one loop; if none does, it creates and releases three
    capture objects and changes nothing else. *)
Theorem app_start_camera_spec (dev : Z -> bool) (c : App.camera) :
  App.camera_running c = false ->
  let c' := App.start_camera dev c in
  App.latest_frame c' = App.latest_frame c /\
  ((dev 0%Z = true \/ dev 1%Z = true \/ dev 2%Z = true) ->
     App.camera_running c' = true /\ App.loops c' = S (App.loops c) /\
     exists i, App.global_cap c' = Some i /\ dev i = true) /\
  (dev 0%Z = false -> dev 1%Z = false -> dev 2%Z = false ->
     c' = App.mkCamera (App.global_cap c) false (App.latest_frame c)
            (App.opened c + 3) (App.loops c)).
Proof. exact (app_start_camera_spec_facts dev c). Qed.

Lemma app_start_camera_spec_witness :
  App.camera_running (App.start_camera dev0 idle_camera) = true.
Proof.
  apply (app_start_camera_spec dev0 idle_camera eq_refl). left. reflexivity.
Defined.

(** ** X13 *)

(** X13: in [camera_loop] of src/app.py, a successful read is what
    [capture_frame] returns next; a failed read restarts the camera, and
    when a device opens the restart sets [camera_running] again and spawns
    a new loop, so the stalled loop keeps running beside it (two loops),
    while the previous frame is still served. *)
Theorem camera_stall_spawns_loop (dev : Z -> bool) (c : App.camera) :
  App.global_cap c <> None ->
  (forall f, App.capture_frame (App.camera_loop_step dev true (Some f) c)
             = Some f) /\
  ((dev 0%Z = true \/ dev 1%Z = true \/ dev 2%Z = true) ->
     let c' := App.camera_loop_step dev true None c in
     App.camera_running c' = true /\ App.loops c' = S (App.loops c) /\
     App.latest_frame c' = App.latest_frame c).
Proof.
  intro Hc. unfold App.camera_loop_step.
  destruct (App.global_cap c) as [j|]; [|congruence].
  split; [reflexivity|]. intro Hd. cbn [negb].
  destruct (app_start_camera_spec_facts dev (App.stop_camera c) eq_refl)
    as [L [Hon _]].
  destruct (Hon Hd) as [R [Lp _]].
  unfold App.restart_camera. split; [exact R|]. split; [exact Lp|exact L].
Qed.

Definition running_camera : App.camera :=
  App.mkCamera (Some 0%Z) true (Some [7%Z]) 1 1.

Lemma camera_stall_spawns_loop_witness :
  App.loops (App.camera_loop_step dev0 true None running_camera) = 2%nat.
Proof.
  apply (camera_stall_spawns_loop dev0 running_camera ltac:(discriminate)).
  left. reflexivity.
Defined.

(** ** X14 *)

Lemma scan_accounting_facts (predict_image : Cam.frame -> option Q) (k : App.kiosk) :
  let (r, k') := App.scan predict_image k in
  (k' = k /\ exists msg, r = App.RError msg) \/
  (App.status (App.st k) = App.RUNNING /\
   exists f q, App.capture_frame (App.cam k) = Some f /\
     predict_image f = Some q /\
     r = App.RLabel (App.label_of_score q) /\
     App.last_item (App.st k') = App.label_of_score q /\
     App.status (App.st k') = App.RUNNING /\
     App.transaction_id (App.st k') = App.transaction_id (App.st k) /\
     App.cam k' = App.cam k /\ App.cloud_log k' = App.cloud_log k /\
     ((App.label_of_score q = "Plastic" <-> 1 # 2 <= q) /\
      (App.label_of_score q = "Can" <-> q < 1 # 2)) /\
     (App.label_of_score q = "Plastic" ->
        App.plastic (App.st k') = S (App.plastic (App.st k)) /\
        App.cans (App.st k') = App.cans (App.st k)) /\
     (App.label_of_score q = "Can" ->
        App.plastic (App.st k') = App.plastic (App.st k) /\
        App.cans (App.st k') = S (App.cans (App.st k)))).
Proof.
  unfold App.scan.
  destruct (App.status (App.st k)) eqn:S;
    [left; split; [reflexivity|eexists; reflexivity] | |
     left; split; [reflexivity|eexists; reflexivity]].
  destruct (App.capture_frame (App.cam k)) as [f|] eqn:F;
    [|left; split; [reflexivity|eexists; reflexivity]].
  destruct (predict_image f) as [q|] eqn:P;
    [|left; split; [reflexivity|eexists; reflexivity]].
  right. split; [reflexivity|]. exists f, q.
  assert (Hl : (App.label_of_score q = "Plastic" <-> 1 # 2 <= q) /\
               (App.label_of_score q = "Can" <-> q < 1 # 2)).
  { unfold App.label_of_score. destruct (Qle_bool (1 # 2) q) eqn:E.
    - apply Qle_bool_iff in E. split; [tauto|].
      split; [discriminate|intro; lra].
    - split; [split; [discriminate|intro H; apply Qle_bool_iff in H; congruence]|].
      split; [intros _|reflexivity].
      apply Qnot_le_lt. intro H. apply Qle_bool_iff in H. congruence. }
  unfold App.label_of_score in *.
  destruct (Qle_bool (1 # 2) q) eqn:E; cbn;
    (do 9 (split; [first [reflexivity | exact S | exact P | exact Hl]|]));
    split; intro H; first [discriminate | split; reflexivity].
Qed.

(** X14: every scan either answers an error and leaves the kiosk exactly
    as it was, or (only while RUNNING, with a frame and a model score [q])
    answers the label "Plastic" when [q >= 0.5] and "Can" otherwise,
    records it as [last_item] and adds one to exactly the matching counter,
    touching nothing else. *)
Theorem scan_accounting (predict_image : Cam.frame -> option Q) (k : App.kiosk) :
  let (r, k') := App.scan predict_image k in
  (k' = k /\ exists msg, r = App.RError msg) \/
  (App.status (App.st k) = App.RUNNING /\
   exists f q, App.capture_frame (App.cam k) = Some f /\
     predict_image f = Some q /\
     r = App.RLabel (App.label_of_score q) /\
     App.last_item (App.st k') = App.label_of_score q /\
     App.status (App.st k') = App.RUNNING /\
     App.transaction_id (App.st k') = App.transaction_id (App.st k) /\
     App.cam k' = App.cam k /\ App.cloud_log k' = App.cloud_log k /\
     ((App.label_of_score q = "Plastic" <-> 1 # 2 <= q) /\
      (App.label_of_score q = "Can" <-> q < 1 # 2)) /\
     (App.label_of_score q = "Plastic" ->
        App.plastic (App.st k') = S (App.plastic (App.st k)) /\
        App.cans (App.st k') = App.cans (App.st k)) /\
     (App.label_of_score q = "Can" ->
        App.plastic (App.st k') = App.plastic (App.st k) /\
        App.cans (App.st k') = S (App.cans (App.st k)))).
Proof. exact (scan_accounting_facts predict_image k). Qed.

(** ** X15 *)

(** X15: a run of scans while RUNNING with a frame available and a model
    that always answers adds exactly one item per scan to
    [plastic + cans], keeps the status RUNNING and leaves the camera
    alone. *)
Theorem scans_count (ps : list (Cam.frame -> option Q)) (k : App.kiosk) :
  App.status (App.st k) = App.RUNNING ->
  App.latest_frame (App.cam k) <> None ->
  (forall p f, In p ps -> p f <> None) ->
  let k' := App.scans ps k in
  (App.plastic (App.st k') + App.cans (App.st k') =
     App.plastic (App.st k) + App.cans (App.st k) + length ps)%nat /\
  App.status (App.st k') = App.RUNNING /\ App.cam k' = App.cam k.
Proof.
  revert k. induction ps as [|p ps IH]; intros k Hs Hf Hp; cbn.
  - split; [lia|split; [exact Hs|reflexivity]].
  - pose proof (scan_accounting_facts p k) as A.
    destruct (App.scan p k) as [r k1] eqn:E. cbn.
    destruct A as [[-> [msg ->]] | [_ [f [q [F [P [_ [_ [R1 [_ [C1 [_ [_ [HP HC]]]]]]]]]]]]]].
    + exfalso. unfold App.scan in E. rewrite Hs in E. unfold App.capture_frame in E.
      destruct (App.latest_frame (App.cam k)) as [f|]; [|congruence].
      destruct (p f) eqn:P; [discriminate|].
      exact (Hp p f (or_introl eq_refl) P).
    + destruct (IH k1 R1 ltac:(now rewrite C1)
                  ltac:(intros p' f' Hin; apply Hp; now right))
        as [IH1 [IH2 IH3]].
      split; [|split; [exact IH2|rewrite IH3; exact C1]].
      rewrite IH1.
      unfold App.label_of_score in HP, HC.
      destruct (Qle_bool (1 # 2) q).
      * destruct (HP eq_refl) as [-> ->]. lia.
      * destruct (HC eq_refl) as [-> ->]. lia.
Qed.

Lemma scans_count_witness :
  (App.plastic (App.st (App.scans [fun _ => Some (9 # 10); fun _ => Some (0 # 1)]
                          (App.mkKiosk (App.st running_no_frame)
                             running_camera []))) +
   App.cans (App.st (App.scans [fun _ => Some (9 # 10); fun _ => Some (0 # 1)]
                          (App.mkKiosk (App.st running_no_frame)
                             running_camera []))) = 1 + 4 + 2)%nat.
Proof.
  apply (proj1 (scans_count [fun _ => Some (9 # 10); fun _ => Some (0 # 1)]
                  (App.mkKiosk (App.st running_no_frame) running_camera [])
                  eq_refl ltac:(discriminate)
                  ltac:(intros p f [<-|[<-|[]]]; discriminate))).
Defined.

(** ** X16 *)

(** X16: [stop] outside RUNNING answers "IDLE" and changes nothing.
    While RUNNING it stops the camera (flag cleared, device dropped, last
    frame kept) and posts STOP, keeping counters and transaction id; if the
    post succeeds it answers success and moves to SHOW_RESULT, after which
    every scan is refused; if the post fails it answers "Failed" and the
    status stays RUNNING. *)
Theorem stop_spec (post_ok : bool) (k : App.kiosk) :
  let (r, k') := App.stop post_ok k in
  (App.status (App.st k) <> App.RUNNING -> r = App.RError "IDLE" /\ k' = k) /\
  (App.status (App.st k) = App.RUNNING ->
     App.camera_running (App.cam k') = false /\
     App.global_cap (App.cam k') = None /\
     App.latest_frame (App.cam k') = App.latest_frame (App.cam k) /\
     App.plastic (App.st k') = App.plastic (App.st k) /\
     App.cans (App.st k') = App.cans (App.st k) /\
     App.transaction_id (App.st k') = App.transaction_id (App.st k) /\
     App.cloud_log k' = app (App.cloud_log k) ["STOP"] /\
     (post_ok = true -> r = App.RSuccess /\
        App.status (App.st k') = App.SHOW_RESULT /\
        forall p, App.scan p k' = (App.RError "IDLE", k')) /\
     (post_ok = false -> r = App.RError "Failed" /\
        App.status (App.st k') = App.RUNNING)).
Proof.
  unfold App.stop.
  destruct (App.status (App.st k)) eqn:S; cbv beta iota.
  - split; [intros _; split; reflexivity | discriminate].
  - destruct post_ok; cbn; (split; [congruence|intros _]);
      (do 7 (split; [reflexivity|])).
    + split; [intros _; split; [reflexivity|split; [reflexivity|]]|discriminate].
      intro p. reflexivity.
    + split; [discriminate|intros _; split; [reflexivity|exact S]].
  - split; [intros _; split; reflexivity | discriminate].
Qed.

Lemma stop_spec_witness :
  fst (App.stop true running_no_frame) = App.RSuccess.
Proof.
  pose proof (stop_spec true running_no_frame) as H.
  destruct (App.stop true running_no_frame) as [r k'].
  destruct H as [_ H]. destruct (H eq_refl) as [_ [_ [_ [_ [_ [_ [_ [H1 _]]]]]]]].
  exact (proj1 (H1 eq_refl)).
Defined.

(** ** X17 *)

(** X17: [reset] from any state answers success, sets IDLE and stops the
    camera, but keeps the counters, [last_item], the transaction id, the
    claim secret and the last frame; every scan after it is refused. *)
Theorem reset_spec (k : App.kiosk) :
  let (r, k') := App.reset k in
  r = App.RSuccess /\ App.status (App.st k') = App.IDLE /\
  App.camera_running (App.cam k') = false /\
  App.global_cap (App.cam k') = None /\
  App.latest_frame (App.cam k') = App.latest_frame (App.cam k) /\
  App.plastic (App.st k') = App.plastic (App.st k) /\
  App.cans (App.st k') = App.cans (App.st k) /\
  App.last_item (App.st k') = App.last_item (App.st k) /\
  App.transaction_id (App.st k') = App.transaction_id (App.st k) /\
  App.claim_secret (App.st k') = App.claim_secret (App.st k) /\
  forall p, App.scan p k' = (App.RError "IDLE", k').
Proof. cbn. repeat split. Qed.

(** ** X18 *)

(** X18: neither [reset] nor [start] clears the frame buffer.  When no
    camera index opens at the new [start], no acquisition thread is spawned
    and the camera stays stopped, so [capture_frame] still returns the last
    frame of the previous session; once the new session is RUNNING, its
    scans classify that old frame. *)
Theorem stale_frame_after_restart (dev : Z -> bool) (reply : App.cloud_reply)
    (k : App.kiosk) (f : Cam.frame) (predict_image : Cam.frame -> option Q)
    (q : Q) :
  App.capture_frame (App.cam k) = Some f ->
  dev 0%Z = false -> dev 1%Z = false -> dev 2%Z = false ->
  predict_image f = Some q ->
  let k' := snd (App.start dev reply (snd (App.reset k))) in
  App.capture_frame (App.cam k') = Some f /\
  App.camera_running (App.cam k') = false /\
  App.loops (App.cam k') = App.loops (App.cam k) /\
  (App.status (App.st k') = App.RUNNING ->
     fst (App.scan predict_image k') = App.RLabel (App.label_of_score q)).
Proof.
  intros Hf D0 D1 D2 Hp k'.
  assert (Hc : App.cam k' =
    App.mkCamera None false (App.latest_frame (App.cam k))
      (3 + App.opened (App.cam k)) (App.loops (App.cam k))).
  { unfold k'.
    destruct (start_resets_without_bin_check_facts dev reply
                (snd (App.reset k))) as [_ [_ [_ [Hc _]]]].
    rewrite Hc. unfold App.start_camera, App.reset. cbn.
    rewrite D0, D1, D2. reflexivity. }
  unfold App.capture_frame in *.
  split; [rewrite Hc; exact Hf|].
  split; [rewrite Hc; reflexivity|].
  split; [rewrite Hc; reflexivity|].
  intro Hs. unfold App.scan, App.capture_frame. rewrite Hs, Hc. cbn.
  rewrite Hf, Hp. reflexivity.
Qed.

Definition no_device (i : Z) : bool := false.

Lemma stale_frame_after_restart_witness :
  fst (App.scan (fun _ => Some (9 # 10))
         (snd (App.start no_device (App.Reply true (Some "t2") (Some "s2"))
                 (snd (App.reset (App.mkKiosk (App.st running_no_frame)
                                    running_camera []))))))
  = App.RLabel "Plastic".
Proof.
  destruct (stale_frame_after_restart no_device
              (App.Reply true (Some "t2") (Some "s2"))
              (App.mkKiosk (App.st running_no_frame) running_camera []) [7%Z]
              (fun _ => Some (9 # 10)) (9 # 10)
              eq_refl eq_refl eq_refl eq_refl eq_refl) as [_ [_ [_ H]]].
  exact (H eq_refl).
Defined.
